(** * SeeWithYou: the capture / label / description pipeline of
    [src/app/(tabs)/index.tsx], shallowly embedded.

    Numbers of the Rekognition response (confidence, bounding-box fields)
    and the depth reading are modelled as rationals [Q]; the thresholds the
    code compares against are the exact decimals of the source.  Strings
    are [String.string]; [toLowerCase] is modelled on ASCII letters. *)

From Stdlib Require Import String Ascii List ZArith QArith Qround Lqa Lia Bool.
Import ListNotations.
Open Scope string_scope.

(** ** Data model (Rekognition [Label], [Instance], [BoundingBox]) *)

Record BoundingBox := mkBox {
  Left : option Q;
  Top : option Q;
  Width : option Q;
  Height : option Q
}.

Record Instance := mkInstance {
  BoundingBox_ : option BoundingBox
}.

Record Label := mkLabel {
  Name : option string;
  Confidence : option Q;
  Instances : option (list Instance)
}.

(** JS [x || 0] on an optional number (no NaN in [Q]). *)
Definition or0 (x : option Q) : Q :=
  match x with Some q => q | None => 0 end.

Definition qlt (a b : Q) : bool := negb (Qle_bool b a).

(** ** Strings *)

Definition lower_ascii (c : ascii) : ascii :=
  let n := nat_of_ascii c in
  if ((65 <=? n) && (n <=? 90))%nat then ascii_of_nat (n + 32)%nat else c.

Fixpoint toLowerCase (s : string) : string :=
  match s with
  | EmptyString => EmptyString
  | String c s' => String (lower_ascii c) (toLowerCase s')
  end.

Fixpoint startsWith (s pre : string) : bool :=
  match pre, s with
  | EmptyString, _ => true
  | String c pre', String d s' => Ascii.eqb c d && startsWith s' pre'
  | String _ _, EmptyString => false
  end.

(** [String.prototype.includes]. *)
Fixpoint includes (s sub : string) : bool :=
  startsWith s sub ||
  match s with
  | EmptyString => false
  | String _ s' => includes s' sub
  end.

Definition is_empty (s : string) : bool :=
  match s with EmptyString => true | _ => false end.

(** ** Object filter (lines 149-164) *)

Definition excludeCategories : list string :=
  [ "interior design"; "architecture"; "room"; "indoors"; "outdoors";
    "building"; "floor"; "wall"; "ceiling"; "flooring"; "hardwood";
    "wood"; "lighting"; "urban"; "city"; "nature"; "scenery"; "landscape";
    "housing"; "shelter"; "home decor"; "art"; "modern art"; "abstract" ].

(** [label.Name?.toLowerCase() || ''] *)
Definition filter_name (label : Label) : string :=
  match Name label with Some n => toLowerCase n | None => "" end.

(** [label.Instances && label.Instances.length > 0] *)
Definition has_instances (label : Label) : bool :=
  match Instances label with Some (_ :: _) => true | _ => false end.

Definition keep_label (label : Label) : bool :=
  if existsb (fun cat => includes (filter_name label) cat) excludeCategories
  then false
  else has_instances label.

Definition physicalObjects (allLabels : list Label) : list Label :=
  filter keep_label allLabels.

(** [physicalObjects.slice(0, 3)] *)
Definition topObjects (allLabels : list Label) : list Label :=
  firstn 3 (physicalObjects allLabels).

(** ** Number formatting of the leading sentence (lines 178-180)

    [distFeet = Math.round(realDistance * 10) / 10] is kept as its integer
    number of tenths [Math.round(realDistance * 10)]; [Math.round x] is
    [floor (x + 1/2)].  [String(distFeet)] prints the shortest decimal,
    which for a whole number of tenths is the integer part followed by
    [".d"] when the tenths digit [d] is not zero (JS switches to exponent
    notation only from [1e21] on, beyond the fuel below). *)

Definition digit (n : Z) : ascii := ascii_of_nat (48 + Z.to_nat n)%nat.

Fixpoint dec_digits (fuel : nat) (n : Z) : string :=
  match fuel with
  | O => ""
  | S f =>
      if (n <? 10)%Z then String (digit n) ""
      else dec_digits f (n / 10)%Z ++ String (digit (n mod 10)%Z) ""
  end.

Definition pos_tenths_to_string (t : Z) : string :=
  dec_digits 64 (t / 10)%Z ++
  (if (t mod 10 =? 0)%Z then ""
   else String "."%char (String (digit (t mod 10)%Z) "")).

Definition tenths_to_string (t : Z) : string :=
  if (t <? 0)%Z then "-" ++ pos_tenths_to_string (- t)%Z else pos_tenths_to_string t.

Definition Math_round_tenths (d : Q) : Z := Qfloor (d * 10 + (1 # 2)).

(** ** Distance and direction from the first instance (lines 193-244) *)

Definition distance_bucket (boxArea : Q) : string :=
  if qlt (3 # 10) boxArea then "2 to 3 feet"
  else if qlt (15 # 100) boxArea then "4 to 6 feet"
  else if qlt (8 # 100) boxArea then "8 to 10 feet"
  else if qlt (4 # 100) boxArea then "12 to 15 feet"
  else "more than 15 feet".

Definition horizontal_of (centerX : Q) : string :=
  if qlt centerX (3 # 10) then "on your left"
  else if qlt (7 # 10) centerX then "on your right"
  else "in front of you".

Definition vertical_of (centerY : Q) : string :=
  if qlt centerY (3 # 10) then "above"
  else if qlt (7 # 10) centerY then "below"
  else "".

Definition combine_direction (vertical horizontal : string) : string :=
  if negb (is_empty vertical) && negb (String.eqb horizontal "in front of you")
  then vertical ++ " and " ++ horizontal
  else if negb (is_empty vertical) then vertical ++ " " ++ horizontal
  else horizontal.

Definition direction_of_box (box : BoundingBox) : string :=
  let centerX := or0 (Left box) + or0 (Width box) / 2 in
  let centerY := or0 (Top box) + or0 (Height box) / 2 in
  combine_direction (vertical_of centerY) (horizontal_of centerX).

(** [(objectDistance, direction)] as computed for one label. *)
Definition object_info (label : Label) : string * string :=
  match Instances label with
  | Some (instance :: _) =>
      match BoundingBox_ instance with
      | Some box =>
          let boxArea := or0 (Width box) * or0 (Height box) in
          (distance_bucket boxArea, direction_of_box box)
      | None => ("", "")
      end
  | _ => ("", "")
  end.

(** ** Sentence assembly (lines 172-265) *)

(** [label.Name?.toLowerCase() || 'object'] *)
Definition narrated_name (label : Label) : string :=
  match Name label with
  | Some n => let l := toLowerCase n in if is_empty l then "object" else l
  | None => "object"
  end.

(** [!realDistance]: null, and also the falsy number 0. *)
Definition not_realDistance (realDistance : option Q) : bool :=
  match realDistance with None => true | Some d => Qeq_bool d 0 end.

Definition object_clause (realDistance : option Q) (index : nat) (label : Label)
  : string :=
  let '(objectDistance, direction) := object_info label in
  (if (index =? 0)%nat then "I see a " ++ narrated_name label
   else ", a " ++ narrated_name label) ++
  (if negb (is_empty objectDistance) && not_realDistance realDistance
   then " about " ++ objectDistance ++ " away" else "") ++
  (if negb (is_empty direction) then " " ++ direction else "").

(** [topObjects.forEach((label, index) => ...)] *)
Fixpoint object_clauses (realDistance : option Q) (index : nat) (l : list Label)
  : string :=
  match l with
  | [] => ""
  | label :: rest =>
      object_clause realDistance index label ++
      object_clauses realDistance (S index) rest
  end.

Definition leading_clause (realDistance : option Q) : string :=
  match realDistance with
  | Some d =>
      "Objects are approximately " ++ tenths_to_string (Math_round_tenths d)
      ++ " feet away. "
  | None => "Objects detected. "
  end.

Definition fallback_text : string :=
  "No specific objects detected. Try pointing at a clear object like a person, chair, or bottle.".

(** The description computed from [physicalObjects] and [realDistance]. *)
Definition synthesize (physical : list Label) (realDistance : option Q) : string :=
  match physical with
  | [] => fallback_text
  | _ :: _ =>
      let top := firstn 3 physical in
      leading_clause realDistance ++ object_clauses realDistance 0 top ++ "."
  end.

Definition description (allLabels : list Label) (realDistance : option Q) : string :=
  synthesize (physicalObjects allLabels) realDistance.

(** Sample inputs. *)
Definition chair_box : BoundingBox :=
  mkBox (Some (1 # 10)) (Some (4 # 10)) (Some (3 # 10)) (Some (3 # 10)).
Definition chair : Label :=
  mkLabel (Some "chair") (Some 95) (Some [mkInstance (Some chair_box)]).
Definition interior_design : Label :=
  mkLabel (Some "interior design") (Some 90)
    (Some [mkInstance (Some (mkBox (Some (2 # 10)) (Some (2 # 10))
                                   (Some (5 # 10)) (Some (5 # 10))))]).

(** ** The capture cycle [takePicture] (lines 100-285)

    The component state is the three [useState] cells the cycle reads or
    writes; the collaborators' answers are an environment record.  A run
    of the cycle is its list of observable effects, in order. *)

Record UiState := mkUi {
  analyzing : bool;
  result : string;
  hasLiDAR : bool
}.

(** A thrown JS error: its [code] and [message] fields. *)
Record JsError := mkError {
  code : option string;
  message : option string
}.

(** [CameraModule.takePicture()]: resolves to a photo whose [base64] field
    may be missing, or rejects. *)
Inductive CaptureOutcome :=
| PhotoTaken (base64 : option string)
| CaptureRejected (e : JsError).

Record Env := mkEnv {
  CameraModule_present : bool;
  capture : CaptureOutcome;
  upload_error : option JsError;                    (** [s3Client.send] *)
  detect_result : JsError + option (list Label);    (** [rekognitionResult.Labels] *)
  ARKitDepthModule_present : bool;
  depth_at_center : option Q                        (** [null] on a failed read *)
}.

Inductive Event :=
| SetAnalyzing (b : bool)
| SetResult (s : string)
| Speak (s : string)
| TakePhoto
| UploadImage
| DetectLabels
| ReadDepth.

Definition apply_event (s : UiState) (ev : Event) : UiState :=
  match ev with
  | SetAnalyzing b => mkUi b (result s) (hasLiDAR s)
  | SetResult r => mkUi (analyzing s) r (hasLiDAR s)
  | _ => s
  end.

Definition run_events (s : UiState) (evs : list Event) : UiState :=
  fold_left apply_event evs s.

Definition no_image_data : JsError := mkError None (Some "No image data").

(** [getARKitDistance()], called only when [hasLiDAR]. *)
Definition getARKitDistance (s : UiState) (env : Env) : list Event * option Q :=
  if negb (hasLiDAR s) || negb (ARKitDepthModule_present env) then ([], None)
  else ([ReadDepth], depth_at_center env).

(** The [try] block: the effects it performs, and the error it throws. *)
Definition try_block (s : UiState) (env : Env) : list Event * option JsError :=
  match capture env with
  | CaptureRejected e => ([], Some e)
  | PhotoTaken None => ([], Some no_image_data)
  | PhotoTaken (Some b64) =>
      if is_empty b64 then ([], Some no_image_data) else
      let evs1 := [SetResult "Analyzing image..."; Speak "Analyzing"; UploadImage] in
      match upload_error env with
      | Some e => (evs1, Some e)
      | None =>
          let evs2 := (evs1 ++ [DetectLabels])%list in
          match detect_result env with
          | inl e => (evs2, Some e)
          | inr labels =>
              let allLabels := match labels with Some l => l | None => [] end in
              let physical := physicalObjects allLabels in
              let '(evs3, realDistance) :=
                if hasLiDAR s then getARKitDistance s env else ([], None) in
              let desc := synthesize physical realDistance in
              ((evs2 ++ evs3 ++ [SetResult desc; Speak desc])%list, None)
          end
      end
  end.

(** [error?.message || error?.toString() || 'Unknown error']; the
    [toString] of an [Error] whose message is empty is ["Error"]. *)
Definition error_details (e : JsError) : string :=
  match message e with
  | Some m => if is_empty m then "Error" else m
  | None => "Error"
  end.

(** The [catch] block. *)
Definition catch_block (e : JsError) : list Event :=
  match code e with
  | Some c =>
      if String.eqb c "CANCELLED" then [SetResult ""; SetAnalyzing false]
      else [SetResult ("Analysis failed: " ++ error_details e);
            Speak "Analysis failed. Please try again."]
  | None =>
      [SetResult ("Analysis failed: " ++ error_details e);
       Speak "Analysis failed. Please try again."]
  end.

Definition takePicture (s : UiState) (env : Env) : list Event :=
  if analyzing s || negb (CameraModule_present env) then [] else
  let '(evs, err) := try_block s env in
  ([SetAnalyzing true; Speak "Opening camera"; TakePhoto] ++ evs ++
   match err with Some e => catch_block e | None => [] end ++
   [SetAnalyzing false])%list.

(** ** Start-up: [checkLiDAR] (lines 39-53) and the mount effect (lines 30-37) *)

(** The [hasLiDAR] and [arSessionActive] cells. *)
Record LidarCells := mkCells {
  cell_hasLiDAR : bool;
  cell_arSessionActive : bool
}.

(** [useState(false)] for both cells. *)
Definition initial_cells : LidarCells := mkCells false false.

(** The answers of [ARKitDepthModule]. *)
Record MountEnv := mkMountEnv {
  ARKit_present : bool;
  isLiDARAvailable_result : JsError + bool;
  startDepthSession_error : option JsError
}.

Inductive LidarEvent :=
| SetHasLiDAR (b : bool)
| StartDepthSession
| SetArSessionActive (b : bool)
| StopDepthSession.

Definition checkLiDAR (env : MountEnv) : list LidarEvent :=
  if ARKit_present env then
    match isLiDARAvailable_result env with
    | inl _ => []
    | inr available =>
        SetHasLiDAR available ::
        (if available then
           StartDepthSession ::
           match startDepthSession_error env with
           | Some _ => []
           | None => [SetArSessionActive true]
           end
         else [])
    end
  else [].

Definition apply_lidar (c : LidarCells) (ev : LidarEvent) : LidarCells :=
  match ev with
  | SetHasLiDAR b => mkCells b (cell_arSessionActive c)
  | SetArSessionActive b => mkCells (cell_hasLiDAR c) b
  | _ => c
  end.

Definition run_lidar (c : LidarCells) (evs : list LidarEvent) : LidarCells :=
  fold_left apply_lidar evs c.

(** The cleanup closure [() => { if (arSessionActive && ARKitDepthModule) ... }]
    reads the [arSessionActive] of the render it was created in. *)
Definition cleanup_of (render_arSessionActive : bool) (env : MountEnv)
  : list LidarEvent :=
  if render_arSessionActive && ARKit_present env then [StopDepthSession] else [].

(** [useEffect(..., [])]: run once after the first render, whose cells are
    [initial_cells]; the cleanup is that render's closure. *)
Definition mount_effect (env : MountEnv) : list LidarEvent * list LidarEvent :=
  (checkLiDAR env, cleanup_of (cell_arSessionActive initial_cells) env).

(** ** [base64ToUint8Array] (lines 55-62), after [atob]

    [binaryString] is the already decoded string; [charCodeAt] out of range
    is [NaN], stored as [0] in a [Uint8Array], and a typed-array write out
    of range is ignored. *)

Definition charCodeAt (s : string) (i : nat) : Z :=
  match String.get i s with
  | Some c => Z.of_nat (nat_of_ascii c)
  | None => 0%Z
  end.

Fixpoint typed_set (bytes : list Z) (i : nat) (x : Z) : list Z :=
  match bytes, i with
  | [], _ => []
  | _ :: rest, O => x :: rest
  | b :: rest, S i' => b :: typed_set rest i' x
  end.

(** [for (let i = start; i < binaryString.length; i++) bytes[i] = ...],
    with [k] iterations left. *)
Fixpoint copy_loop (k i : nat) (binaryString : string) (bytes : list Z) : list Z :=
  match k with
  | O => bytes
  | S k' =>
      copy_loop k' (S i) binaryString
        (typed_set bytes i (charCodeAt binaryString i mod 256))
  end.

Definition base64ToUint8Array_of_binary (binaryString : string) : list Z :=
  copy_loop (String.length binaryString) 0 binaryString
    (repeat 0%Z (String.length binaryString)).

(** ** The screen (lines 287-334) *)

Record Screen := mkScreen {
  lidar_badge : bool;
  shown_text : string;
  instruction_subtext : option string;
  button_disabled : bool;
  button_label : string
}.

Definition instruction_text : string :=
  "Tap the button to take a picture and analyze your surroundings".

Definition render (s : UiState) : Screen :=
  mkScreen (hasLiDAR s)
    (if is_empty (result s) then instruction_text else result s)
    (if is_empty (result s) && hasLiDAR s
     then Some "Using LiDAR for accurate distance measurement" else None)
    (analyzing s)
    (if analyzing s then "Analyzing..." else "Tap to Analyze").

(** ** Auxiliary definitions for the statements *)

(** Rank of a distance phrase, nearest first. *)
Definition bucket_rank (phrase : string) : nat :=
  if String.eqb phrase "2 to 3 feet" then 0
  else if String.eqb phrase "4 to 6 feet" then 1
  else if String.eqb phrase "8 to 10 feet" then 2
  else if String.eqb phrase "12 to 15 feet" then 3
  else if String.eqb phrase "more than 15 feet" then 4
  else 5.

(** Order-preserving sub-sequence. *)
Inductive subseq {A : Type} : list A -> list A -> Prop :=
| subseq_nil : subseq [] []
| subseq_skip : forall x l1 l2, subseq l1 l2 -> subseq l1 (x :: l2)
| subseq_keep : forall x l1 l2, subseq l1 l2 -> subseq (x :: l1) (x :: l2).

(** The direction phrase as the spec words it, from the box centre. *)
Definition spec_direction (cx cy : Q) : string :=
  let horizontal :=
    if Qlt_le_dec cx (3 # 10) then "on your left"
    else if Qlt_le_dec (7 # 10) cx then "on your right"
    else "in front of you" in
  let vertical :=
    if Qlt_le_dec cy (3 # 10) then Some "above"
    else if Qlt_le_dec (7 # 10) cy then Some "below"
    else None in
  match vertical with
  | Some v =>
      if String.eqb horizontal "in front of you" then v ++ " " ++ horizontal
      else v ++ " and " ++ horizontal
  | None => horizontal
  end.

(** The result text after a list of effects: the last [SetResult]. *)
Definition last_result (evs : list Event) (d : string) : string :=
  fold_left (fun acc ev => match ev with SetResult r => r | _ => acc end) evs d.





(** The nine direction phrases. *)
Definition direction_phrases : list string :=
  [ "on your left"; "on your right"; "in front of you";
    "above and on your left"; "above and on your right"; "above in front of you";
    "below and on your left"; "below and on your right"; "below in front of you" ].

(** ** General lemmas *)

Lemma qlt_true (a b : Q) : qlt a b = true <-> a < b.
Proof.
  unfold qlt. rewrite negb_true_iff. split; intro H.
  - apply Qnot_le_lt. intro H'. apply Qle_bool_iff in H'. congruence.
  - destruct (Qle_bool b a) eqn:E; [|reflexivity].
    apply Qle_bool_iff in E. exfalso. apply (Qlt_not_le a b); assumption.
Qed.

Lemma qlt_false (a b : Q) : qlt a b = false <-> b <= a.
Proof.
  unfold qlt. rewrite negb_false_iff. apply Qle_bool_iff.
Qed.

Lemma subseq_refl {A} (l : list A) : subseq l l.
Proof. induction l; constructor; assumption. Qed.

Lemma subseq_nil_l {A} (l : list A) : subseq [] l.
Proof. induction l; constructor; assumption. Qed.

Lemma subseq_trans {A} (l1 l2 l3 : list A) :
  subseq l1 l2 -> subseq l2 l3 -> subseq l1 l3.
Proof.
  intros H12 H23. revert l1 H12.
  induction H23; intros l0 H0.
  - exact H0.
  - constructor. apply IHsubseq. exact H0.
  - inversion H0; subst.
    + apply subseq_skip. apply IHsubseq. assumption.
    + apply subseq_keep. apply IHsubseq. assumption.
Qed.

Lemma subseq_filter {A} (f : A -> bool) (l : list A) : subseq (filter f l) l.
Proof.
  induction l as [|x l IH]; simpl; [constructor|].
  destruct (f x); constructor; exact IH.
Qed.

Lemma subseq_firstn {A} (n : nat) (l : list A) : subseq (firstn n l) l.
Proof.
  revert l; induction n as [|n IH]; intros [|x l]; simpl;
    try apply subseq_nil_l.
  apply subseq_keep. apply IH.
Qed.

Lemma last_result_app (a b : list Event) (d : string) :
  last_result (a ++ b) d = last_result b (last_result a d).
Proof. unfold last_result. apply fold_left_app. Qed.

Lemma result_run_events (s : UiState) (evs : list Event) :
  result (run_events s evs) = last_result evs (result s).
Proof.
  unfold run_events, last_result. revert s.
  induction evs as [|ev evs IH]; intro s; simpl; [reflexivity|].
  rewrite IH. destruct ev; reflexivity.
Qed.

Lemma try_block_hasLiDAR (s1 s2 : UiState) (env : Env) :
  hasLiDAR s1 = hasLiDAR s2 -> try_block s1 env = try_block s2 env.
Proof.
  intro H. unfold try_block, getARKitDistance. rewrite H. reflexivity.
Qed.

(** Every started cycle displays a result: it does not depend on the
    text shown before. *)
Lemma takePicture_last_result (s : UiState) (env : Env) (d1 d2 : string) :
  analyzing s = false -> CameraModule_present env = true ->
  last_result (takePicture s env) d1 = last_result (takePicture s env) d2.
Proof.
  intros Ha Hc. unfold takePicture. rewrite Ha, Hc. cbn [orb negb].
  destruct (try_block s env) as [evs err] eqn:Et.
  rewrite !last_result_app.
  destruct err as [e|].
  - unfold catch_block.
    destruct (code e) as [c|]; [destruct (String.eqb c "CANCELLED")|];
      reflexivity.
  - unfold try_block in Et.
    destruct (capture env) as [[b64|]|e]; [|discriminate|discriminate].
    destruct (is_empty b64); [discriminate|].
    destruct (upload_error env); [discriminate|].
    destruct (detect_result env) as [e|labels]; [discriminate|].
    destruct (if hasLiDAR s then getARKitDistance s env else ([], None)) as [evs3 rd].
    injection Et as <-. unfold last_result; simpl; rewrite !fold_left_app; reflexivity.
Qed.

Lemma string_append_empty_r (s : string) : s ++ "" = s.
Proof. induction s as [|c s IH]; simpl; [reflexivity | rewrite IH; reflexivity]. Qed.

(** Case split on a comparison of the spec side, aligned with [qlt]. *)
Ltac split_q a b :=
  let H := fresh "Hq" in
  destruct (Qlt_le_dec a b) as [H|H];
  [ try rewrite (proj2 (qlt_true a b) H) | try rewrite (proj2 (qlt_false a b) H) ].

(** ** Claims *)

(** C1 (as stated, refuted): with no measured distance, the description of
    [chair; interior design] is not
    "Objects detected. I see a chair about 4 to 6 feet away on your left.":
    the chair box has area 0.09 > 0.08. *)
Lemma C1_counterexample :
  description [chair; interior_design] None <>
  "Objects detected. I see a chair about 4 to 6 feet away on your left.".
Proof. vm_compute. discriminate. Qed.

(** C1 (amended): whatever the confidence and instances of the
    "interior design" label, the filter drops it, and the description of
    [chair; interior design] with no measured distance is exactly
    "Objects detected. I see a chair about 8 to 10 feet away on your left.". *)
Theorem C1_amended (conf : option Q) (insts : option (list Instance)) :
  physicalObjects [chair; mkLabel (Some "interior design") conf insts] = [chair] /\
  description [chair; mkLabel (Some "interior design") conf insts] None =
  "Objects detected. I see a chair about 8 to 10 feet away on your left.".
Proof. split; reflexivity. Qed.

(** C2 (code bug): a measured distance of exactly 0 is announced in the
    leading sentence, yet the falsy test [!realDistance] lets the per-object
    "about ... away" clause through. *)
Theorem C2_zero_distance_keeps_about_clause :
  description [chair] (Some 0) =
  "Objects are approximately 0 feet away. I see a chair about 8 to 10 feet away on your left.".
Proof. vm_compute. reflexivity. Qed.

(** C3: when the filtered object list is empty, the description is exactly
    the fixed fallback sentence. *)
Theorem C3_empty_fallback (allLabels : list Label) (realDistance : option Q) :
  physicalObjects allLabels = [] ->
  description allLabels realDistance =
  "No specific objects detected. Try pointing at a clear object like a person, chair, or bottle.".
Proof. intro H. unfold description. rewrite H. reflexivity. Qed.

Lemma C3_empty_fallback_witness :
  physicalObjects [interior_design] = [] /\
  description [interior_design] (Some 4) =
  "No specific objects detected. Try pointing at a clear object like a person, chair, or bottle.".
Proof.
  split; [reflexivity|].
  apply (C3_empty_fallback [interior_design] (Some 4)). reflexivity.
Defined.

(** C4: a smaller box area never gets a nearer distance phrase. *)
Theorem C4_bucket_monotone (a1 a2 : Q) :
  a1 < a2 -> (bucket_rank (distance_bucket a2) <= bucket_rank (distance_bucket a1))%nat.
Proof.
  intro H. unfold distance_bucket.
  destruct (qlt (3 # 10) a2) eqn:E1; destruct (qlt (3 # 10) a1) eqn:F1;
  destruct (qlt (15 # 100) a2) eqn:E2; destruct (qlt (15 # 100) a1) eqn:F2;
  destruct (qlt (8 # 100) a2) eqn:E3; destruct (qlt (8 # 100) a1) eqn:F3;
  destruct (qlt (4 # 100) a2) eqn:E4; destruct (qlt (4 # 100) a1) eqn:F4;
  vm_compute; try lia;
  repeat match goal with
  | Hq : qlt _ _ = true |- _ => apply qlt_true in Hq
  | Hq : qlt _ _ = false |- _ => apply qlt_false in Hq
  end; exfalso; lra.
Qed.

Lemma C4_bucket_monotone_witness :
  (1 # 10) < (2 # 10) /\
  (bucket_rank (distance_bucket (2 # 10)) <= bucket_rank (distance_bucket (1 # 10)))%nat.
Proof.
  split; [reflexivity|].
  apply C4_bucket_monotone. reflexivity.
Defined.

(** C5: a label whose lowercased name contains a denylisted term is never
    among the physical objects, whatever its confidence and instances. *)
Theorem C5_denylist_excluded (allLabels : list Label) (label : Label) (n : string) :
  Name label = Some n ->
  (exists cat, In cat excludeCategories /\ includes (toLowerCase n) cat = true) ->
  ~ In label (physicalObjects allLabels).
Proof.
  intros Hn [cat [Hin Hc]] Hl.
  apply filter_In in Hl as [_ Hk].
  unfold keep_label, filter_name in Hk. rewrite Hn in Hk.
  assert (Hex : existsb (fun cat => includes (toLowerCase n) cat) excludeCategories = true).
  { apply existsb_exists. exists cat. split; assumption. }
  rewrite Hex in Hk. discriminate.
Qed.

Definition living_room : Label :=
  mkLabel (Some "Living Room") (Some 99) (Some [mkInstance (Some chair_box)]).

Lemma C5_denylist_excluded_witness :
  Name living_room = Some "Living Room" /\
  (exists cat, In cat excludeCategories /\ includes (toLowerCase "Living Room") cat = true) /\
  ~ In living_room (physicalObjects [chair; living_room]).
Proof.
  assert (Hn : Name living_room = Some "Living Room") by reflexivity.
  assert (Hc : exists cat, In cat excludeCategories /\
                 includes (toLowerCase "Living Room") cat = true).
  { exists "room". split; [simpl; tauto | reflexivity]. }
  split; [exact Hn|]. split; [exact Hc|].
  exact (C5_denylist_excluded [chair; living_room] living_room "Living Room" Hn Hc).
Defined.

(** C6: the narrated objects are at most 3, all with at least one
    instance, in their input order. *)
Theorem C6_filter_cap_order (allLabels : list Label) :
  (length (topObjects allLabels) <= 3)%nat /\
  Forall (fun label => has_instances label = true) (topObjects allLabels) /\
  subseq (topObjects allLabels) allLabels.
Proof.
  unfold topObjects. split; [|split].
  - apply firstn_le_length.
  - apply Forall_forall. intros x Hx.
    assert (Hp : In x (physicalObjects allLabels)).
    { rewrite <- (firstn_skipn 3 (physicalObjects allLabels)).
      apply in_or_app. left. exact Hx. }
    apply filter_In in Hp as [_ Hk].
    unfold keep_label in Hk.
    destruct (existsb _ _); [discriminate | exact Hk].
  - apply (subseq_trans _ (physicalObjects allLabels));
      [apply subseq_firstn | apply subseq_filter].
Qed.

(** C7: the direction phrase is the spec's function of the box centre
    (left + width/2, top + height/2); centres (0.1, 0.1) and (0.9, 0.9)
    give "above and on your left" and "below and on your right". *)
Theorem C7_direction (l t w h : Q) :
  direction_of_box (mkBox (Some l) (Some t) (Some w) (Some h)) =
    spec_direction (l + w / 2) (t + h / 2) /\
  direction_of_box (mkBox (Some 0) (Some 0) (Some (2 # 10)) (Some (2 # 10))) =
    "above and on your left" /\
  direction_of_box (mkBox (Some (8 # 10)) (Some (8 # 10)) (Some (2 # 10)) (Some (2 # 10))) =
    "below and on your right".
Proof.
  split; [|split; vm_compute; reflexivity].
  unfold direction_of_box, spec_direction, combine_direction,
    horizontal_of, vertical_of, or0; cbn [Left Top Width Height].
  generalize (l + w / 2) as cx. generalize (t + h / 2) as cy. intros cy cx.
  split_q cx (3 # 10); split_q (7 # 10) cx; split_q cy (3 # 10); split_q (7 # 10) cy;
    reflexivity.
Qed.

(** C8: the cycle's effects, and so the displayed and spoken description,
    depend only on the collaborators' answers and the depth-availability
    flag, never on the earlier UI state (e.g. the text shown before). *)
Theorem C8_deterministic (s1 s2 : UiState) (env : Env) :
  analyzing s1 = false -> analyzing s2 = false ->
  hasLiDAR s1 = hasLiDAR s2 -> CameraModule_present env = true ->
  takePicture s1 env = takePicture s2 env /\
  result (run_events s1 (takePicture s1 env)) =
  result (run_events s2 (takePicture s2 env)).
Proof.
  intros Ha1 Ha2 Hl Hc.
  assert (E : takePicture s1 env = takePicture s2 env).
  { unfold takePicture. rewrite Ha1, Ha2, (try_block_hasLiDAR s1 s2 env Hl).
    reflexivity. }
  split; [exact E|].
  rewrite !result_run_events, <- E.
  apply takePicture_last_result; assumption.
Qed.

Definition sample_env : Env :=
  mkEnv true (PhotoTaken (Some "/9j/4AAQ")) None (inr (Some [chair; interior_design]))
        false None.

Lemma C8_deterministic_witness :
  takePicture (mkUi false "" false) sample_env =
  takePicture (mkUi false "Analysis failed: timeout" false) sample_env /\
  result (run_events (mkUi false "" false)
            (takePicture (mkUi false "" false) sample_env)) =
  result (run_events (mkUi false "Analysis failed: timeout" false)
            (takePicture (mkUi false "Analysis failed: timeout" false) sample_env)).
Proof.
  apply (C8_deterministic (mkUi false "" false)
           (mkUi false "Analysis failed: timeout" false) sample_env);
    reflexivity.
Defined.

(** C9: a capture rejected with code "CANCELLED" stops the cycle: no
    upload, no analysis, nothing spoken after "Opening camera", the result
    text cleared and [analyzing] reset. *)
Theorem C9_cancelled_capture (s : UiState) (env : Env) (e : JsError) :
  analyzing s = false -> CameraModule_present env = true ->
  capture env = CaptureRejected e -> code e = Some "CANCELLED" ->
  takePicture s env =
    [SetAnalyzing true; Speak "Opening camera"; TakePhoto;
     SetResult ""; SetAnalyzing false; SetAnalyzing false] /\
  result (run_events s (takePicture s env)) = "" /\
  analyzing (run_events s (takePicture s env)) = false.
Proof.
  intros Ha Hc Hcap Hcode.
  assert (E : takePicture s env =
    [SetAnalyzing true; Speak "Opening camera"; TakePhoto;
     SetResult ""; SetAnalyzing false; SetAnalyzing false]).
  { unfold takePicture, try_block. rewrite Ha, Hc, Hcap. cbn [orb negb].
    unfold catch_block. rewrite Hcode. reflexivity. }
  rewrite E. split; [reflexivity | split; reflexivity].
Qed.

Definition cancelled : JsError := mkError (Some "CANCELLED") (Some "User cancelled").

Lemma C9_cancelled_capture_witness :
  takePicture (mkUi false "" true)
    (mkEnv true (CaptureRejected cancelled) None (inr None) true (Some 3)) =
    [SetAnalyzing true; Speak "Opening camera"; TakePhoto;
     SetResult ""; SetAnalyzing false; SetAnalyzing false] /\
  result (run_events (mkUi false "" true)
    (takePicture (mkUi false "" true)
       (mkEnv true (CaptureRejected cancelled) None (inr None) true (Some 3)))) = "" /\
  analyzing (run_events (mkUi false "" true)
    (takePicture (mkUi false "" true)
       (mkEnv true (CaptureRejected cancelled) None (inr None) true (Some 3)))) = false.
Proof.
  apply (C9_cancelled_capture (mkUi false "" true)
           (mkEnv true (CaptureRejected cancelled) None (inr None) true (Some 3))
           cancelled); reflexivity.
Defined.

(** C10: only [instances[0]] is consulted: the distance and direction come
    from its box alone, further instances change neither the filter nor the
    narrated clause, and without a box the clause is the name alone. *)
Theorem C10_first_instance_only (realDistance : option Q) (index : nat)
    (name : option string) (conf : option Q) (i : Instance)
    (rest rest' : list Instance) :
  object_info (mkLabel name conf (Some (i :: rest))) =
    match BoundingBox_ i with
    | Some box => (distance_bucket (or0 (Width box) * or0 (Height box)),
                   direction_of_box box)
    | None => ("", "")
    end /\
  keep_label (mkLabel name conf (Some (i :: rest))) =
    keep_label (mkLabel name conf (Some (i :: rest'))) /\
  object_clause realDistance index (mkLabel name conf (Some (i :: rest))) =
    object_clause realDistance index (mkLabel name conf (Some (i :: rest'))) /\
  object_clause realDistance index (mkLabel name conf (Some (mkInstance None :: rest))) =
    (if (index =? 0)%nat then "I see a " else ", a ") ++
      narrated_name (mkLabel name conf (Some (mkInstance None :: rest))).
Proof.
  split; [reflexivity|]. split; [reflexivity|]. split; [reflexivity|].
  unfold object_clause. cbn [object_info Instances BoundingBox_ is_empty negb andb].
  rewrite !string_append_empty_r.
  destruct (index =? 0)%nat; reflexivity.
Qed.

(** ** Further properties of the code *)

Lemma run_events_app (s : UiState) (a b : list Event) :
  run_events s (a ++ b) = run_events (run_events s a) b.
Proof. unfold run_events. apply fold_left_app. Qed.

(** Every started cycle ends in [finally { setAnalyzing(false) }]. *)
Lemma takePicture_ends_idle (s : UiState) (env : Env) :
  analyzing s = false -> CameraModule_present env = true ->
  exists evs, takePicture s env = (evs ++ [SetAnalyzing false])%list.
Proof.
  intros Ha Hc. unfold takePicture. rewrite Ha, Hc. cbn [orb negb].
  destruct (try_block s env) as [evs err].
  eexists. rewrite !app_assoc. reflexivity.
Qed.

(** After any started cycle, whatever the collaborators answered, the busy
    flag is cleared and the screen offers the capture button again. *)
Theorem takePicture_resets_busy (s : UiState) (env : Env) :
  analyzing s = false -> CameraModule_present env = true ->
  analyzing (run_events s (takePicture s env)) = false /\
  button_disabled (render (run_events s (takePicture s env))) = false /\
  button_label (render (run_events s (takePicture s env))) = "Tap to Analyze".
Proof.
  intros Ha Hc. destruct (takePicture_ends_idle s env Ha Hc) as [evs E].
  rewrite E, run_events_app. split; [|split]; reflexivity.
Qed.

Lemma takePicture_resets_busy_witness :
  analyzing (run_events (mkUi false "" false) (takePicture (mkUi false "" false) sample_env)) = false /\
  button_disabled (render (run_events (mkUi false "" false)
                             (takePicture (mkUi false "" false) sample_env))) = false /\
  button_label (render (run_events (mkUi false "" false)
                          (takePicture (mkUi false "" false) sample_env))) = "Tap to Analyze".
Proof. apply takePicture_resets_busy; reflexivity. Defined.



(** A failure other than a cancellation, at whatever step it is thrown,
    leaves "Analysis failed: <details>" on screen and speaks the fixed
    apology as the cycle's last utterance. *)
Theorem takePicture_failure_reported (s : UiState) (env : Env) (e : JsError) :
  analyzing s = false -> CameraModule_present env = true ->
  snd (try_block s env) = Some e -> code e <> Some "CANCELLED" ->
  (exists evs, takePicture s env =
     (evs ++ [SetResult ("Analysis failed: " ++ error_details e);
              Speak "Analysis failed. Please try again."; SetAnalyzing false])%list) /\
  result (run_events s (takePicture s env)) = "Analysis failed: " ++ error_details e.
Proof.
  intros Ha Hc He Hcode.
  assert (Hcatch : catch_block e =
    [SetResult ("Analysis failed: " ++ error_details e);
     Speak "Analysis failed. Please try again."]).
  { unfold catch_block. destruct (code e) as [c|] eqn:Ec; [|reflexivity].
    destruct (String.eqb c "CANCELLED") eqn:Eq; [|reflexivity].
    apply String.eqb_eq in Eq. subst. contradiction. }
  assert (E : exists evs, takePicture s env =
     (evs ++ [SetResult ("Analysis failed: " ++ error_details e);
              Speak "Analysis failed. Please try again."; SetAnalyzing false])%list).
  { unfold takePicture. rewrite Ha, Hc. cbn [orb negb].
    destruct (try_block s env) as [evs err]. cbn in He. subst err.
    rewrite Hcatch.
    exists ([SetAnalyzing true; Speak "Opening camera"; TakePhoto] ++ evs)%list.
    rewrite <- !app_assoc. reflexivity. }
  split; [exact E|].
  destruct E as [evs E]. rewrite E, !run_events_app. reflexivity.
Qed.

Definition upload_failure_env : Env :=
  mkEnv true (PhotoTaken (Some "/9j/4AAQ")) (Some (mkError None (Some "Network request failed")))
        (inr None) false None.

Lemma takePicture_failure_reported_witness :
  (exists evs, takePicture (mkUi false "" false) upload_failure_env =
     (evs ++ [SetResult "Analysis failed: Network request failed";
              Speak "Analysis failed. Please try again."; SetAnalyzing false])%list) /\
  result (run_events (mkUi false "" false) (takePicture (mkUi false "" false) upload_failure_env))
    = "Analysis failed: Network request failed".
Proof.
  apply (takePicture_failure_reported (mkUi false "" false) upload_failure_env
           (mkError None (Some "Network request failed")));
    [reflexivity | reflexivity | reflexivity | discriminate].
Defined.

(** A photo without image data is reported as "No image data" before
    anything is uploaded. *)
Theorem takePicture_no_image_data (s : UiState) (env : Env) (b64 : option string) :
  analyzing s = false -> CameraModule_present env = true ->
  capture env = PhotoTaken b64 -> (b64 = None \/ b64 = Some "") ->
  takePicture s env =
    [SetAnalyzing true; Speak "Opening camera"; TakePhoto;
     SetResult "Analysis failed: No image data";
     Speak "Analysis failed. Please try again."; SetAnalyzing false].
Proof.
  intros Ha Hc Hcap Hb. unfold takePicture, try_block. rewrite Ha, Hc, Hcap.
  destruct Hb as [-> | ->]; reflexivity.
Qed.

Lemma takePicture_no_image_data_witness :
  takePicture (mkUi false "" true)
    (mkEnv true (PhotoTaken (Some "")) None (inr None) true None) =
    [SetAnalyzing true; Speak "Opening camera"; TakePhoto;
     SetResult "Analysis failed: No image data";
     Speak "Analysis failed. Please try again."; SetAnalyzing false].
Proof.
  apply (takePicture_no_image_data _ _ (Some "")); [reflexivity | reflexivity | reflexivity |].
  right. reflexivity.
Defined.

Lemma catch_block_effects (e : JsError) (ev : Event) :
  In ev (catch_block e) ->
  ev <> DetectLabels /\ ev <> ReadDepth /\ ev <> UploadImage.
Proof.
  unfold catch_block. intro H.
  destruct (code e) as [c|]; [destruct (String.eqb c "CANCELLED")|];
    simpl in H; intuition (subst; discriminate).
Qed.

Ltac in_events H :=
  repeat (rewrite in_app_iff in H); simpl in H;
  repeat match type of H with
  | _ \/ _ => destruct H as [H|H]
  end;
  try discriminate; try contradiction;
  try (apply catch_block_effects in H; intuition congruence).



(** The depth sensor is read only when LiDAR was detected at start-up and
    the native module is present. *)
Theorem takePicture_depth_read_gated (s : UiState) (env : Env) :
  In ReadDepth (takePicture s env) ->
  hasLiDAR s = true /\ ARKitDepthModule_present env = true.
Proof.
  intro H. unfold takePicture in H.
  destruct (analyzing s || negb (CameraModule_present env)); [contradiction|].
  unfold try_block in H.
  destruct (capture env) as [[b64|]|e]; [|in_events H|in_events H].
  destruct (is_empty b64); [in_events H|].
  destruct (upload_error env); [in_events H|].
  destruct (detect_result env); [in_events H|].
  unfold getARKitDistance in H.
  destruct (hasLiDAR s); [|in_events H].
  destruct (ARKitDepthModule_present env); [|in_events H].
  split; reflexivity.
Qed.

Lemma takePicture_depth_read_gated_witness :
  In ReadDepth (takePicture (mkUi false "" true)
    (mkEnv true (PhotoTaken (Some "/9j/4AAQ")) None (inr (Some [chair])) true (Some 3))) /\
  hasLiDAR (mkUi false "" true) = true /\
  ARKitDepthModule_present
    (mkEnv true (PhotoTaken (Some "/9j/4AAQ")) None (inr (Some [chair])) true (Some 3)) = true.
Proof.
  assert (H : In ReadDepth (takePicture (mkUi false "" true)
    (mkEnv true (PhotoTaken (Some "/9j/4AAQ")) None (inr (Some [chair])) true (Some 3)))).
  { simpl. tauto. }
  split; [exact H|]. exact (takePicture_depth_read_gated _ _ H).
Defined.




Lemma string_append_assoc (a b c : string) : (a ++ b) ++ c = a ++ (b ++ c).
Proof. induction a as [|x a IH]; simpl; [reflexivity | rewrite IH; reflexivity]. Qed.

Lemma synthesize_period (physical : list Label) (realDistance : option Q) :
  exists p, synthesize physical realDistance = p ++ ".".
Proof.
  destruct physical as [|x rest].
  - exists "No specific objects detected. Try pointing at a clear object like a person, chair, or bottle".
    reflexivity.
  - exists (leading_clause realDistance ++
            object_clauses realDistance 0 (firstn 3 (x :: rest))).
    unfold synthesize. rewrite string_append_assoc. reflexivity.
Qed.

(** Every description, the fallback included, is one sentence or more
    ending in a period. *)
Theorem synthesize_ends_with_period (physical : list Label) (realDistance : option Q) :
  exists p, synthesize physical realDistance = p ++ ".".
Proof. apply synthesize_period. Qed.

(** Only the first three physical objects reach the description: it is the
    synthesis of [topObjects]. *)
Theorem description_top_three (allLabels : list Label) (realDistance : option Q) :
  description allLabels realDistance = synthesize (topObjects allLabels) realDistance.
Proof.
  unfold description, topObjects.
  destruct (physicalObjects allLabels) as [|a l]; [reflexivity|].
  assert (E : firstn 3 (a :: l) = a :: firstn 2 l) by reflexivity.
  unfold synthesize. rewrite E, <- E, firstn_firstn. reflexivity.
Qed.




(** Every box gets one of nine direction phrases, never an empty one. *)
Theorem direction_of_box_phrases (box : BoundingBox) :
  In (direction_of_box box) direction_phrases.
Proof.
  unfold direction_of_box, combine_direction, horizontal_of, vertical_of.
  destruct (qlt (or0 (Left box) + or0 (Width box) / 2) (3 # 10));
  [|destruct (qlt (7 # 10) (or0 (Left box) + or0 (Width box) / 2))];
  (destruct (qlt (or0 (Top box) + or0 (Height box) / 2) (3 # 10));
   [|destruct (qlt (7 # 10) (or0 (Top box) + or0 (Height box) / 2))]);
  vm_compute; auto 12.
Qed.










(** After start-up, [hasLiDAR] is set exactly when the native module is
    present and reports LiDAR, and the depth session is marked active
    exactly when, in addition, starting it succeeded: a failed start
    leaves [hasLiDAR] set without an active session. *)
Theorem checkLiDAR_outcome (env : MountEnv) :
  (cell_hasLiDAR (run_lidar initial_cells (checkLiDAR env)) = true <->
     ARKit_present env = true /\ isLiDARAvailable_result env = inr true) /\
  (cell_arSessionActive (run_lidar initial_cells (checkLiDAR env)) = true <->
     ARKit_present env = true /\ isLiDARAvailable_result env = inr true /\
     startDepthSession_error env = None).
Proof.
  unfold checkLiDAR.
  destruct (ARKit_present env); [|cbn; intuition congruence].
  destruct (isLiDARAvailable_result env) as [e|[|]]; [cbn; intuition congruence| |cbn; intuition congruence].
  destruct (startDepthSession_error env); cbn; intuition congruence.
Qed.

(** The unmount cleanup never stops the depth session, although the mount
    effect starts it whenever LiDAR is reported: the cleanup closure is the
    first render's, whose [arSessionActive] is [false]. *)
Theorem mount_cleanup_never_stops (env : MountEnv) :
  snd (mount_effect env) = [] /\
  (In StartDepthSession (fst (mount_effect env)) <->
     ARKit_present env = true /\ isLiDARAvailable_result env = inr true).
Proof.
  split; [reflexivity|]. unfold mount_effect, checkLiDAR; cbn [fst].
  destruct (ARKit_present env); [|cbn; intuition congruence].
  destruct (isLiDARAvailable_result env) as [e|[|]]; cbn; intuition congruence.
Qed.

(** [base64ToUint8Array] *)

Lemma nat_of_ascii_lt_256 (c : ascii) : (nat_of_ascii c < 256)%nat.
Proof.
  destruct c as [b0 b1 b2 b3 b4 b5 b6 b7];
  destruct b0, b1, b2, b3, b4, b5, b6, b7; apply Nat.ltb_lt; reflexivity.
Qed.

Lemma length_list_ascii_of_string (s : string) :
  length (list_ascii_of_string s) = String.length s.
Proof. induction s as [|c s IH]; simpl; [reflexivity | rewrite IH; reflexivity]. Qed.

Lemma charCodeAt_nth (s : string) (i : nat) :
  (i < String.length s)%nat ->
  (charCodeAt s i mod 256)%Z =
  nth i (map (fun c => Z.of_nat (nat_of_ascii c)) (list_ascii_of_string s)) 0%Z.
Proof.
  unfold charCodeAt. revert i.
  induction s as [|c s IH]; intros i Hi; simpl in Hi; [lia|].
  destruct i as [|i]; cbn [String.get list_ascii_of_string map nth].
  - apply Z.mod_small. pose proof (nat_of_ascii_lt_256 c). lia.
  - apply IH. lia.
Qed.

Lemma typed_set_length (bytes : list Z) (i : nat) (x : Z) :
  length (typed_set bytes i x) = length bytes.
Proof.
  revert i. induction bytes as [|b bytes IH]; intros [|i]; simpl; auto.
Qed.

Lemma firstn_typed_set (bytes : list Z) (i : nat) (x : Z) :
  (i < length bytes)%nat ->
  firstn (S i) (typed_set bytes i x) = (firstn i bytes ++ [x])%list.
Proof.
  revert i. induction bytes as [|b bytes IH]; intros i Hi; simpl in Hi; [lia|].
  destruct i as [|i]; [reflexivity|].
  change (firstn (S (S i)) (typed_set (b :: bytes) (S i) x))
    with (b :: firstn (S i) (typed_set bytes i x)).
  rewrite IH by lia. reflexivity.
Qed.

Lemma firstn_S_nth {A} (l : list A) (i : nat) (d : A) :
  (i < length l)%nat -> firstn (S i) l = (firstn i l ++ [nth i l d])%list.
Proof.
  revert i. induction l as [|x l IH]; intros i Hi; simpl in Hi; [lia|].
  destruct i as [|i]; [reflexivity|].
  change (firstn (S (S i)) (x :: l)) with (x :: firstn (S i) l).
  rewrite (IH i) by lia. reflexivity.
Qed.

Lemma copy_loop_spec (k i : nat) (s : string) (bytes : list Z) :
  (i + k = String.length s)%nat -> length bytes = String.length s ->
  firstn i bytes =
    firstn i (map (fun c => Z.of_nat (nat_of_ascii c)) (list_ascii_of_string s)) ->
  copy_loop k i s bytes =
    map (fun c => Z.of_nat (nat_of_ascii c)) (list_ascii_of_string s).
Proof.
  assert (Hlen : length (map (fun c => Z.of_nat (nat_of_ascii c)) (list_ascii_of_string s))
                 = String.length s).
  { rewrite length_map. apply length_list_ascii_of_string. }
  revert i bytes. induction k as [|k IH]; intros i bytes Hik Hb Hpre.
  - cbn [copy_loop].
    rewrite firstn_all2 in Hpre by lia.
    rewrite firstn_all2 in Hpre by lia. exact Hpre.
  - cbn [copy_loop]. apply IH.
    + lia.
    + rewrite typed_set_length. exact Hb.
    + rewrite firstn_typed_set by lia.
      rewrite (firstn_S_nth _ i 0%Z) by lia.
      rewrite Hpre, charCodeAt_nth by lia. reflexivity.
Qed.

(** The byte loop copies each character code of the decoded string, in
    order: the array has the string's length and [bytes[i]] is the code of
    its [i]-th character. *)
Theorem base64ToUint8Array_codes (binaryString : string) :
  base64ToUint8Array_of_binary binaryString =
    map (fun c => Z.of_nat (nat_of_ascii c)) (list_ascii_of_string binaryString).
Proof.
  unfold base64ToUint8Array_of_binary. apply copy_loop_spec.
  - lia.
  - apply repeat_length.
  - reflexivity.
Qed.



